(** * Eduu front end: the HTTP client wrapper and the auth state holder

    A shallow embedding of [frontend/src/api/api.js] (the axios instance, its
    request interceptor and the endpoint tables) and of
    [frontend/src/contexts/AuthContext.js] (the [useAuth] hook and the
    [AuthProvider] component), followed by the properties of the
    specification that concern them.

    The browser's [localStorage] is a finite map from keys to strings, the
    three [useState] cells of the provider are the fields of a record, and
    the backend is an oracle handed to every operation that talks to it. *)

From stdpp Require Import gmap strings list pretty.

Set Warnings "-register-all".

Local Open Scope string_scope.
Local Open Scope Z_scope.

(* ===================================================================== *)
(** ** JavaScript values *)
(* ===================================================================== *)

Module JS.

(** The values that travel through the code: what [JSON.parse] yields for
    a response body, plus [undefined].  Numbers are the integers. *)
Inductive jsval : Type :=
| VUndefined
| VNull
| VBool (b : bool)
| VNum (n : Z)
| VStr (s : string)
| VArr (items : list jsval)
| VObj (fields : list (string * jsval)).

(** What a [throw] carries. *)
Inductive exn : Type :=
| TypeError
| Error (message : string)
| AxiosError (status : option Z) (payload : jsval).

(** The completion of a call: a value, or an exception (for an [async]
    function: a resolved or a rejected promise). *)
Inductive outcome (A : Type) : Type :=
| Returned (a : A)
| Thrown (e : exn).
Arguments Returned {A} a.
Arguments Thrown {A} e.

#[global] Instance outcome_ret : MRet outcome := λ A a, Returned a.
#[global] Instance outcome_bind : MBind outcome := λ A B k m,
  match m with
  | Returned a => k a
  | Thrown e => Thrown e
  end.

(** [ToBoolean]: the test performed by [if (v)], [!v] and [v && w]. *)
Definition truthy (v : jsval) : bool :=
  match v with
  | VUndefined | VNull => false
  | VBool b => b
  | VNum n => negb (n =? 0)
  | VStr s => negb (String.eqb s "")
  | VArr _ | VObj _ => true
  end.

(** [v === true]. *)
Definition strict_eq_true (v : jsval) : bool :=
  match v with
  | VBool true => true
  | _ => false
  end.

Fixpoint assoc (k : string) (fields : list (string * jsval)) : jsval :=
  match fields with
  | [] => VUndefined
  | (k', v) :: rest => if String.eqb k k' then v else assoc k rest
  end.

(** [v.k] for a data property [k]: a [TypeError] on [undefined] and
    [null], the field of an object, [undefined] where there is none. *)
Definition get_prop (v : jsval) (k : string) : outcome jsval :=
  match v with
  | VUndefined | VNull => Thrown TypeError
  | VObj fields => Returned (assoc k fields)
  | _ => Returned VUndefined
  end.

(** [ToString], as applied by template literals and by
    [localStorage.setItem]. *)
Fixpoint to_string (v : jsval) : string :=
  match v with
  | VUndefined => "undefined"
  | VNull => "null"
  | VBool true => "true"
  | VBool false => "false"
  | VNum n => pretty n
  | VStr s => s
  | VArr items =>
      String.concat ","
        (map (λ x, match x with
                   | VUndefined | VNull => ""
                   | _ => to_string x
                   end) items)
  | VObj _ => "[object Object]"
  end.

End JS.
Import JS.

(* ===================================================================== *)
(** ** Client-side storage *)
(* ===================================================================== *)

Module LocalStorage.

(** [localStorage.getItem(k)]: the stored string, or [null]. *)
Definition getItem (ls : gmap string string) (k : string) : jsval :=
  match ls !! k with
  | Some s => VStr s
  | None => VNull
  end.

(** [localStorage.setItem(k, v)]: the value is stored as a string. *)
Definition setItem (ls : gmap string string) (k : string) (v : jsval)
  : gmap string string :=
  <[k := to_string v]> ls.

(** [localStorage.removeItem(k)]. *)
Definition removeItem (ls : gmap string string) (k : string)
  : gmap string string :=
  delete k ls.

End LocalStorage.
Import LocalStorage.


(* ===================================================================== *)
(** ** The HTTP client wrapper (api.js) *)
(* ===================================================================== *)

Module Api.

(** The body of a request: none, a JSON value, or a [FormData] object
    (its entries, in order). *)
Inductive body : Type :=
| NoBody
| Json (v : jsval)
| FormData (entries : list (string * string)).

(** An axios request configuration, as the interceptor sees it. *)
Record axios_config : Type := {
  baseURL : string;
  withCredentials : bool;
  method : string;
  url : string;
  headers : gmap string string;
  cfg_data : body
}.

(** The second argument of [fetch]. *)
Record fetch_init : Type := {
  fetch_method : string;
  credentials : string
}.

(** What [await api.<method>(...)] yields when the promise resolves. *)
Record response : Type := {
  data : jsval;
  status : Z
}.

(** The backend and the network between: what becomes of a request. *)
Definition backend : Type := axios_config → outcome response.

(** What leaves the client. *)
Inductive outbound : Type :=
| AxiosRequest (config : axios_config)
| FetchRequest (resource : string) (init : fetch_init)
| WindowOpen (resource : string) (target : string).

(** The [Authorization] header an outbound request carries, if any.  The
    [fetch] calls of the file pass no [headers], and a window navigation has
    none to set. *)
Definition authorization (r : outbound) : option string :=
  match r with
  | AxiosRequest config => headers config !! "Authorization"
  | FetchRequest _ _ => None
  | WindowOpen _ _ => None
  end.

(** [API_BASE_URL]; the argument is [process.env.REACT_APP_BACKEND_URL],
    [None] when it is [undefined]. *)
Definition API_BASE_URL (REACT_APP_BACKEND_URL : option string) : string :=
  match REACT_APP_BACKEND_URL with
  | Some u => u
  | None => "http://localhost:8001"
  end.

(** [config.headers.Authorization = v]. *)
Definition set_Authorization (config : axios_config) (v : string)
  : axios_config :=
  {| baseURL := baseURL config;
     withCredentials := withCredentials config;
     method := method config;
     url := url config;
     headers := <["Authorization" := v]> (headers config);
     cfg_data := cfg_data config |}.

(** The request interceptor registered on [api]. *)
Definition interceptor (ls : gmap string string) (config : axios_config)
  : axios_config :=
  let token := getItem ls "token" in
  if truthy token
  then set_Authorization config ("Bearer " +:+ to_string token)
  else config.

(** The configuration [api.<method>(url, data, { headers })] builds from the
    defaults given to [axios.create]. *)
Definition api_config (env : option string) (m u : string) (d : body)
  (h : gmap string string) : axios_config :=
  {| baseURL := API_BASE_URL env;
     withCredentials := true;
     method := m;
     url := u;
     headers := h;
     cfg_data := d |}.

Definition api_get (env : option string) (u : string) : axios_config :=
  api_config env "get" u NoBody ∅.

Definition api_post (env : option string) (u : string) (d : body)
  (h : gmap string string) : axios_config :=
  api_config env "post" u d h.

Definition api_put (env : option string) (u : string) (d : body)
  (h : gmap string string) : axios_config :=
  api_config env "put" u d h.

Definition api_delete (env : option string) (u : string) : axios_config :=
  api_config env "delete" u NoBody ∅.

Definition multipart : gmap string string :=
  {[ "Content-Type" := "multipart/form-data" ]}.

(** The functions of the exported tables that call a method of [api], with
    their arguments. *)
Inductive api_call : Type :=
| authAPI_login (credentials : jsval)
| authAPI_register (userData : jsval)
| authAPI_logout
| authAPI_verifyEmail (token : jsval)
| authAPI_resendVerification (email : jsval)
| authAPI_forgotPassword (email : jsval)
| authAPI_resetPassword (token newPassword : jsval)
| papersAPI_getAll
| papersAPI_create (formData : list (string * string))
| papersAPI_update (id : jsval) (formData : list (string * string))
| papersAPI_delete (id : jsval)
| notesAPI_getAll
| notesAPI_create (formData : list (string * string))
| notesAPI_update (id : jsval) (formData : list (string * string))
| notesAPI_delete (id : jsval)
| syllabusAPI_getAll
| syllabusAPI_create (formData : list (string * string))
| syllabusAPI_update (id : jsval) (formData : list (string * string))
| syllabusAPI_delete (id : jsval)
| statsAPI_get
| profileAPI_get
| profileAPI_update (profileData : jsval)
| profileAPI_uploadPhoto (file : string)
| profileAPI_removePhoto
| profileAPI_updatePassword (passwordData : jsval)
| profileAPI_getStats
| bookmarksAPI_getAll
| bookmarksAPI_create (bookmarkData : jsval)
| bookmarksAPI_remove (resourceType resourceId : jsval)
| bookmarksAPI_check (resourceType resourceId : jsval)
| achievementsAPI_getAll
| learningGoalsAPI_getAll
| learningGoalsAPI_create (goalData : jsval)
| learningGoalsAPI_update (goalId goalData : jsval)
| learningGoalsAPI_delete (goalId : jsval).

(** Every function of the exported tables: those above, and the download and
    view helpers of the three resource tables. *)
Inductive call : Type :=
| via_api (c : api_call)
| papersAPI_download (id : jsval)
| papersAPI_view (id : jsval)
| notesAPI_download (id : jsval)
| notesAPI_view (id : jsval)
| syllabusAPI_download (id : jsval)
| syllabusAPI_view (id : jsval).

(** The download helpers: the [fetch] they start with. *)
Definition download_fetch (env : option string) (section id : string)
  : outbound :=
  FetchRequest (API_BASE_URL env +:+ "/api/" +:+ section +:+ "/" +:+ id +:+ "/download")
    {| fetch_method := "GET"; credentials := "include" |}.

(** The view helpers. *)
Definition view_open (env : option string) (section id : string) : outbound :=
  WindowOpen (API_BASE_URL env +:+ "/api/" +:+ section +:+ "/" +:+ id +:+ "/view")
    "_blank".

(** The configuration each of these functions hands to [api], before any
    interceptor has run. *)
Definition prepare (env : option string) (c : api_call) : axios_config :=
  match c with
  | authAPI_login credentials =>
      api_post env "/api/auth/login" (Json credentials) ∅
  | authAPI_register userData =>
      api_post env "/api/auth/register" (Json userData) ∅
  | authAPI_logout =>
      api_post env "/api/auth/logout" NoBody ∅
  | authAPI_verifyEmail token =>
      api_get env ("/api/auth/verify-email/" +:+ to_string token)
  | authAPI_resendVerification email =>
      api_post env "/api/auth/resend-verification"
                      (Json (VObj [("email", email)])) ∅
  | authAPI_forgotPassword email =>
      api_post env "/api/auth/forgot-password"
                      (Json (VObj [("email", email)])) ∅
  | authAPI_resetPassword token newPassword =>
      api_post env "/api/auth/reset-password"
                      (Json (VObj [("token", token);
                                   ("new_password", newPassword)])) ∅
  | papersAPI_getAll =>
      api_get env "/api/papers"
  | papersAPI_create formData =>
      api_post env "/api/papers/" (FormData formData) multipart
  | papersAPI_update id formData =>
      api_put env ("/api/papers/" +:+ to_string id +:+ "/")
                      (FormData formData) multipart
  | papersAPI_delete id =>
      api_delete env ("/api/papers/" +:+ to_string id +:+ "/")
  | notesAPI_getAll =>
      api_get env "/api/notes"
  | notesAPI_create formData =>
      api_post env "/api/notes/" (FormData formData) multipart
  | notesAPI_update id formData =>
      api_put env ("/api/notes/" +:+ to_string id +:+ "/")
                      (FormData formData) multipart
  | notesAPI_delete id =>
      api_delete env ("/api/notes/" +:+ to_string id +:+ "/")
  | syllabusAPI_getAll =>
      api_get env "/api/syllabus"
  | syllabusAPI_create formData =>
      api_post env "/api/syllabus/" (FormData formData) multipart
  | syllabusAPI_update id formData =>
      api_put env ("/api/syllabus/" +:+ to_string id +:+ "/")
                      (FormData formData) multipart
  | syllabusAPI_delete id =>
      api_delete env ("/api/syllabus/" +:+ to_string id +:+ "/")
  | statsAPI_get =>
      api_get env "/api/stats"
  | profileAPI_get =>
      api_get env "/api/auth/profile"
  | profileAPI_update profileData =>
      api_put env "/api/auth/profile" (Json profileData) ∅
  | profileAPI_uploadPhoto file =>
      api_post env "/api/auth/profile/photo"
                      (FormData [("file", file)]) multipart
  | profileAPI_removePhoto =>
      api_delete env "/api/auth/profile/photo"
  | profileAPI_updatePassword passwordData =>
      api_put env "/api/auth/profile/password"
                      (Json passwordData) ∅
  | profileAPI_getStats =>
      api_get env "/api/auth/profile/stats"
  | bookmarksAPI_getAll =>
      api_get env "/api/bookmarks"
  | bookmarksAPI_create bookmarkData =>
      api_post env "/api/bookmarks" (Json bookmarkData) ∅
  | bookmarksAPI_remove resourceType resourceId =>
      api_delete env ("/api/bookmarks/" +:+ to_string resourceType
                                      +:+ "/" +:+ to_string resourceId)
  | bookmarksAPI_check resourceType resourceId =>
      api_get env ("/api/bookmarks/check/"
                                   +:+ to_string resourceType
                                   +:+ "/" +:+ to_string resourceId)
  | achievementsAPI_getAll =>
      api_get env "/api/achievements"
  | learningGoalsAPI_getAll =>
      api_get env "/api/learning-goals"
  | learningGoalsAPI_create goalData =>
      api_post env "/api/learning-goals" (Json goalData) ∅
  | learningGoalsAPI_update goalId goalData =>
      api_put env ("/api/learning-goals/" +:+ to_string goalId)
                      (Json goalData) ∅
  | learningGoalsAPI_delete goalId =>
      api_delete env ("/api/learning-goals/" +:+ to_string goalId)
  end.

(** The request that leaves the client: a configuration handed to [api]
    passes through the interceptor; [fetch] and [window.open] are called
    directly. *)
Definition issue (env : option string) (ls : gmap string string) (c : call)
  : outbound :=
  match c with
  | via_api c => AxiosRequest (interceptor ls (prepare env c))
  | papersAPI_download id => download_fetch env "papers" (to_string id)
  | papersAPI_view id => view_open env "papers" (to_string id)
  | notesAPI_download id => download_fetch env "notes" (to_string id)
  | notesAPI_view id => view_open env "notes" (to_string id)
  | syllabusAPI_download id => download_fetch env "syllabus" (to_string id)
  | syllabusAPI_view id => view_open env "syllabus" (to_string id)
  end.

End Api.
Import Api.

(* ===================================================================== *)
(** ** The auth state holder (AuthContext.js) *)
(* ===================================================================== *)

Module AuthContext.

(** The browser's storage and the three state cells of [AuthProvider]. *)
Record world : Type := {
  localStorage : gmap string string;
  currentUser : jsval;
  loading : bool;
  isAdmin : bool
}.

(** The cells as [useState] initialises them. *)
Definition mount (ls : gmap string string) : world :=
  {| localStorage := ls; currentUser := VNull; loading := true;
     isAdmin := false |}.

(** A piece of the provider's code: it changes the world and completes. *)
Definition action (A : Type) : Type := world → world * outcome A.

#[global] Instance action_ret : MRet action := λ A a w, (w, Returned a).
#[global] Instance action_bind : MBind action := λ A B k m w,
  match m w with
  | (w', Returned a) => k a w'
  | (w', Thrown e) => (w', Thrown e)
  end.

(** An expression that may throw, evaluated in place. *)
Definition eval {A} (o : outcome A) : action A := λ w, (w, o).

(** [try { body } catch (e) { handler }]. *)
Definition try_catch {A} (body : action A) (handler : exn → action A)
  : action A := λ w,
  match body w with
  | (w', Thrown e) => handler e w'
  | done => done
  end.

(** [try { body } finally { cleanup }]. *)
Definition try_finally {A} (body : action A) (cleanup : action unit)
  : action A := λ w,
  match body w with
  | (w', r) =>
      match cleanup w' with
      | (w'', Returned _) => (w'', r)
      | (w'', Thrown e) => (w'', Thrown e)
      end
  end.

Definition setCurrentUser (u : jsval) : action unit := λ w,
  ({| localStorage := localStorage w; currentUser := u;
      loading := loading w; isAdmin := isAdmin w |}, Returned ()).

Definition setLoading (b : bool) : action unit := λ w,
  ({| localStorage := localStorage w; currentUser := currentUser w;
      loading := b; isAdmin := isAdmin w |}, Returned ()).

Definition setIsAdmin (b : bool) : action unit := λ w,
  ({| localStorage := localStorage w; currentUser := currentUser w;
      loading := loading w; isAdmin := b |}, Returned ()).

Definition localStorage_getItem (k : string) : action jsval := λ w,
  (w, Returned (getItem (localStorage w) k)).

Definition localStorage_setItem (k : string) (v : jsval) : action unit := λ w,
  ({| localStorage := setItem (localStorage w) k v;
      currentUser := currentUser w; loading := loading w;
      isAdmin := isAdmin w |}, Returned ()).

Definition localStorage_removeItem (k : string) : action unit := λ w,
  ({| localStorage := removeItem (localStorage w) k;
      currentUser := currentUser w; loading := loading w;
      isAdmin := isAdmin w |}, Returned ()).

(** [await] on a function of the tables that calls [api]: the
    configuration passes the interceptor with the storage of the moment, and
    the backend decides the rest. *)
Definition await_api (env : option string) (server : backend) (c : api_call)
  : action response := λ w,
  (w, server (interceptor (localStorage w) (prepare env c))).

(** The effect run once after the first render. *)
Definition checkAuth (env : option string) (server : backend) : action unit :=
  token ← localStorage_getItem "token";
  if negb (truthy token) then
    setCurrentUser VNull;;
    setIsAdmin false;;
    setLoading false
  else
    try_finally
      (try_catch
         (res ← await_api env server profileAPI_get;
          let user := data res in
          setCurrentUser user;;
          is_admin ← eval (get_prop user "is_admin");
          setIsAdmin (strict_eq_true is_admin))
         (λ _,
          setCurrentUser VNull;;
          setIsAdmin false))
      (setLoading false).

Definition login (env : option string) (server : backend)
  (email password : jsval) : action jsval :=
  res ← await_api env server
          (authAPI_login (VObj [("email", email); ("password", password)]));
  (* the three console.log lines: their arguments are evaluated *)
  _ ← eval (get_prop (data res) "access_token");
  _ ← eval (get_prop (data res) "user");
  access_token ← eval (get_prop (data res) "access_token");
  user ← eval (get_prop (data res) "user");
  localStorage_setItem "token" access_token;;
  setCurrentUser user;;
  is_admin ← eval (get_prop user "is_admin");
  setIsAdmin (strict_eq_true is_admin);;
  mret user.

Definition register (env : option string) (server : backend)
  (userData : jsval) : action jsval :=
  res ← await_api env server (authAPI_register userData);
  user ← eval (get_prop (data res) "user");
  setCurrentUser user;;
  is_admin ← eval (get_prop user "is_admin");
  setIsAdmin (strict_eq_true is_admin);;
  mret user.

Definition logout (env : option string) (server : backend) : action unit :=
  try_catch
    (_ ← await_api env server authAPI_logout; mret ())
    (λ error, mret ());;
  localStorage_removeItem "token";;
  setCurrentUser VNull;;
  setIsAdmin false.

Definition updateUser (updatedUser : jsval) : action unit :=
  setCurrentUser updatedUser.

(** The object handed to [AuthContext.Provider]. *)
Record context_value : Type := {
  value_currentUser : jsval;
  value_isAdmin : bool;
  value_login : backend → jsval → jsval → action jsval;
  value_register : backend → jsval → action jsval;
  value_logout : backend → action unit;
  value_updateUser : jsval → action unit;
  value_loading : bool
}.

(** The child expression of the provider element: [false], which React
    does not render, or the children. *)
Inductive child (node : Type) : Type :=
| ChildFalse
| ChildNodes (children : node).
Arguments ChildFalse {node}.
Arguments ChildNodes {node} children.

Record provider_element (node : Type) : Type := {
  value : context_value;
  provider_child : child node
}.
Arguments value {node} _.
Arguments provider_child {node} _.

(** What [AuthProvider] returns on a render. *)
Definition AuthProvider {node} (env : option string) (children : node)
  (w : world) : provider_element node :=
  {| value :=
       {| value_currentUser := currentUser w;
          value_isAdmin := isAdmin w;
          value_login := login env;
          value_register := register env;
          value_logout := logout env;
          value_updateUser := updateUser;
          value_loading := loading w |};
     provider_child :=
       if negb (loading w) then ChildNodes children else ChildFalse |}.

(** [useContext(AuthContext)]: the value of the nearest enclosing provider
    (the list holds the enclosing providers' values, innermost first), or
    the default of [createContext()], which is [undefined] ([None]). *)
Definition useContext (enclosing : list context_value)
  : option context_value :=
  head enclosing.

(** [useAuth]: [undefined] is falsy, an object is not. *)
Definition useAuth (enclosing : list context_value) : outcome context_value :=
  match useContext enclosing with
  | None => Thrown (Error "useAuth must be used within an AuthProvider")
  | Some context => Returned context
  end.

(** What happens to a mounted provider. *)
Inductive event : Type :=
| Effect (server : backend)
| Login (server : backend) (email password : jsval)
| Register (server : backend) (userData : jsval)
| Logout (server : backend)
| UpdateUser (updatedUser : jsval).

Definition step (env : option string) (w : world) (ev : event) : world :=
  match ev with
  | Effect server => (checkAuth env server w).1
  | Login server email password => (login env server email password w).1
  | Register server userData => (register env server userData w).1
  | Logout server => (logout env server w).1
  | UpdateUser updatedUser => (updateUser updatedUser w).1
  end.

Definition run (env : option string) (w : world) (evs : list event) : world :=
  foldl (step env) w evs.

Definition is_Effect (ev : event) : bool :=
  match ev with
  | Effect _ => true
  | _ => false
  end.

(** [user.is_admin === true], and [false] where there is no user object to
    read it from. *)
Definition is_admin_of (user : jsval) : bool :=
  match get_prop user "is_admin" with
  | Returned v => strict_eq_true v
  | Thrown _ => false
  end.

(** The flag agrees with the user object held. *)
Definition isAdmin_derived (w : world) : Prop :=
  isAdmin w = is_admin_of (currentUser w).

(** The requests the operations send, given the storage of the moment. *)
Definition profile_request (env : option string) (w : world) : axios_config :=
  interceptor (localStorage w) (prepare env profileAPI_get).

Definition login_request (env : option string) (email password : jsval)
  (w : world) : axios_config :=
  interceptor (localStorage w)
    (prepare env (authAPI_login (VObj [("email", email);
                                       ("password", password)]))).

Definition register_request (env : option string) (userData : jsval)
  (w : world) : axios_config :=
  interceptor (localStorage w) (prepare env (authAPI_register userData)).

Definition logout_request (env : option string) (w : world) : axios_config :=
  interceptor (localStorage w) (prepare env authAPI_logout).

End AuthContext.
Import AuthContext.

(* ===================================================================== *)
(** ** Sample data *)
(* ===================================================================== *)

Module Sample.

Definition student : jsval :=
  VObj [("id", VNum 7); ("email", VStr "s@edu.test"); ("is_admin", VBool false)].

Definition admin : jsval :=
  VObj [("id", VNum 7); ("email", VStr "s@edu.test"); ("is_admin", VBool true)].

Definition stored : gmap string string := {[ "token" := "jwt-0" ]}.

(** A backend that answers every request with a login payload. *)
Definition server_ok : backend := λ _,
  Returned {| data := VObj [("access_token", VStr "jwt-1"); ("user", student)];
              status := 200 |}.

(** A backend that rejects every request with status 401. *)
Definition server_401 : backend := λ _,
  Thrown (AxiosError (Some 401) (VObj [("detail", VStr "Unauthorized")])).

(** No backend at all: a network error. *)
Definition server_down : backend := λ _,
  Thrown (AxiosError None VUndefined).

(** A backend that answers every request with the profile of [user]. *)
Definition server_profile (user : jsval) : backend := λ _,
  Returned {| data := user; status := 200 |}.

Definition credentials_email : jsval := VStr "s@edu.test".
Definition credentials_password : jsval := VStr "secret".

End Sample.

(* ===================================================================== *)
(** ** The download helpers in the browser (api.js) *)
(* ===================================================================== *)

Module Browser.

(** The character the [replace] call of the helpers removes. *)
Definition double_quote : Ascii.ascii := Ascii.ascii_of_nat 34.

Fixpoint drop (n : nat) (s : string) : string :=
  match n, s with
  | O, _ => s
  | S n', String _ s' => drop n' s'
  | S _, EmptyString => EmptyString
  end.

(** The first occurrence of [sep] in [s]: what precedes it and what
    follows it. *)
Fixpoint find_sep (sep s : string) : option (string * string) :=
  if String.prefix sep s then Some ("", drop (String.length sep) s)
  else
    match s with
    | EmptyString => None
    | String c s' =>
        match find_sep sep s' with
        | Some (before, after) => Some (String c before, after)
        | None => None
        end
    end.

(** The pieces between the occurrences of a non-empty [sep], found from left
    to right; every occurrence consumes a character, so [fuel] as long as
    the string is enough. *)
Fixpoint split_pieces (fuel : nat) (sep s : string) : list string :=
  match fuel with
  | O => [s]
  | S fuel' =>
      match find_sep sep s with
      | None => [s]
      | Some (before, after) => before :: split_pieces fuel' sep after
      end
  end.

(** [s.split(sep)]; an empty separator splits into characters. *)
Definition split (sep s : string) : list string :=
  match sep with
  | EmptyString => map (λ c, String c "") (String.list_ascii_of_string s)
  | _ => split_pieces (String.length s) sep s
  end.

(** [s.replace(/c/g, '')] for a single character [c]. *)
Fixpoint remove_all (c : Ascii.ascii) (s : string) : string :=
  match s with
  | EmptyString => EmptyString
  | String x s' =>
      if Ascii.eqb x c then remove_all c s' else String x (remove_all c s')
  end.

(** [header?.split('filename=')[1]?.replace(quotes, '') || fallback], where
    [header] is what [response.headers.get] returned ([None] for [null]) and
    [quotes] is the global pattern of the double quote. *)
Definition file_name (header : option string) (fallback : string) : string :=
  match header ≫= (λ h, split "filename=" h !! 1%nat) with
  | Some piece =>
      let name := remove_all double_quote piece in
      if truthy (VStr name) then name else fallback
  | None => fallback
  end.

(** A [sep] somewhere in [s]. *)
Definition occurs (sep s : string) : Prop :=
  ∃ pre post : string, s = pre +:+ sep +:+ post.

(** What [fetch] resolves to.  The header names are lower-case, as the
    [Headers] object keeps them; reading the body may fail in turn. *)
Record fetch_response : Type := {
  ok : bool;
  response_headers : gmap string string;
  blob : outcome string
}.

(** The backend as [fetch] sees it. *)
Definition fetcher : Type := string → fetch_init → outcome fetch_response.

(** An anchor element: the node, and the two attributes the code sets. *)
Record anchor : Type := {
  node : nat;
  href : string;
  download : string
}.

(** The part of the page the helpers touch: the children of
    [document.body], the live object URLs with the blob behind each, and the
    files the browser was told to save (name and content). *)
Record page : Type := {
  body_children : list nat;
  object_urls : gmap string string;
  saved : list (string * string)
}.

(** A piece of a helper's code. *)
Definition script (A : Type) : Type := page → page * outcome A.

#[global] Instance script_ret : MRet script := λ A a p, (p, Returned a).
#[global] Instance script_bind : MBind script := λ A B k m p,
  match m p with
  | (p', Returned a) => k a p'
  | (p', Thrown e) => (p', Thrown e)
  end.

(** [await] on a promise that is settled by the outside. *)
Definition await {A} (o : outcome A) : script A := λ p, (p, o).

Definition throw {A} (e : exn) : script A := λ p, (p, Thrown e).

(** [window.URL.createObjectURL(blob)]: a URL that is not live yet. *)
Definition createObjectURL (content : string) : script string := λ p,
  let u := fresh (dom (object_urls p)) in
  ({| body_children := body_children p;
      object_urls := <[u := content]> (object_urls p);
      saved := saved p |}, Returned u).

(** [window.URL.revokeObjectURL(url)]. *)
Definition revokeObjectURL (u : string) : script unit := λ p,
  ({| body_children := body_children p;
      object_urls := delete u (object_urls p);
      saved := saved p |}, Returned ()).

(** [document.createElement('a')]: a node that is in no document yet. *)
Definition createElement_a : script anchor := λ p,
  (p, Returned {| node := fresh (body_children p); href := ""; download := "" |}).

Definition set_href (a : anchor) (v : string) : anchor :=
  {| node := node a; href := v; download := download a |}.

Definition set_download (a : anchor) (v : string) : anchor :=
  {| node := node a; href := href a; download := v |}.

(** [document.body.appendChild(a)]. *)
Definition appendChild (a : anchor) : script unit := λ p,
  ({| body_children := body_children p ++ [node a];
      object_urls := object_urls p;
      saved := saved p |}, Returned ()).

(** [document.body.removeChild(a)]: an error when [a] is not a child. *)
Definition removeChild (a : anchor) : script unit := λ p,
  if decide (node a ∈ body_children p) then
    ({| body_children := filter (λ n, n ≠ node a) (body_children p);
        object_urls := object_urls p;
        saved := saved p |}, Returned ())
  else (p, Thrown (Error "NotFoundError")).

(** [a.click()] on an anchor with a [download] attribute: the browser saves
    what is behind [href] under that name, if the URL is live. *)
Definition click (a : anchor) : script unit := λ p,
  match object_urls p !! href a with
  | Some content =>
      ({| body_children := body_children p;
          object_urls := object_urls p;
          saved := saved p ++ [(download a, content)] |}, Returned ())
  | None => (p, Returned ())
  end.

Definition download_url (env : option string) (section id : string) : string :=
  API_BASE_URL env +:+ "/api/" +:+ section +:+ "/" +:+ id +:+ "/download".

Definition download_init : fetch_init :=
  {| fetch_method := "GET"; credentials := "include" |}.

(** The body shared by the three [download] functions, which differ in the
    section of the URL and in the fallback file name. *)
Definition download_helper (env : option string) (fetch : fetcher)
  (section fallback : string) (id : jsval) : script unit :=
  response ← await (fetch (download_url env section (to_string id))
                      download_init);
  if negb (ok response) then throw (Error "Download failed")
  else
    content ← await (blob response);
    u ← createObjectURL content;
    a ← createElement_a;
    let a := set_href a u in
    let a := set_download a
               (file_name (response_headers response !! "content-disposition")
                  fallback) in
    appendChild a;;
    click a;;
    revokeObjectURL u;;
    removeChild a.

End Browser.
Import Browser.

Module papersAPI.
Definition download (env : option string) (fetch : fetcher) (id : jsval)
  : script unit :=
  download_helper env fetch "papers" "paper.pdf" id.
End papersAPI.

Module notesAPI.
Definition download (env : option string) (fetch : fetcher) (id : jsval)
  : script unit :=
  download_helper env fetch "notes" "note.pdf" id.
End notesAPI.

Module syllabusAPI.
Definition download (env : option string) (fetch : fetcher) (id : jsval)
  : script unit :=
  download_helper env fetch "syllabus" "syllabus.pdf" id.
End syllabusAPI.

Module SamplePage.

Definition quoted (s : string) : string :=
  String double_quote (s +:+ String double_quote "").

(** [attachment; filename=] followed by [algebra.pdf] in double quotes. *)
Definition disposition : string :=
  "attachment; filename=" +:+ quoted "algebra.pdf".

Definition pdf_response (header : option string) : fetch_response :=
  {| ok := true;
     response_headers :=
       match header with
       | Some h => {[ "content-disposition" := h ]}
       | None => ∅
       end;
     blob := Returned "%PDF-1.7" |}.

Definition fetch_pdf (header : option string) : fetcher := λ _ _,
  Returned (pdf_response header).

Definition fetch_404 : fetcher := λ _ _,
  Returned {| ok := false; response_headers := ∅;
              blob := Returned "Not Found" |}.

Definition fetch_offline : fetcher := λ _ _, Thrown TypeError.

Definition some_page : page :=
  {| body_children := [0; 1; 4]%nat;
     object_urls := {[ "0" := "earlier blob" ]};
     saved := [] |}.

End SamplePage.

(* ===================================================================== *)
(** ** Properties of the HTTP client wrapper *)
(* ===================================================================== *)

Example to_string_array :
  to_string (VArr [VNum 1; VArr [VNum (-2); VNull]; VObj []; VStr "x"])
  = "1,-2,,[object Object],x".
Proof. by vm_compute. Qed.

Example truthy_samples :
  map truthy [VUndefined; VNull; VStr ""; VNum 0; VStr "0"; VObj []; VArr []]
  = [false; false; false; false; true; true; true].
Proof. reflexivity. Qed.

Example getItem_samples :
  getItem Sample.stored "token" = VStr "jwt-0"
  ∧ getItem Sample.stored "user" = VNull
  ∧ getItem (setItem ∅ "token" VUndefined) "token" = VStr "undefined".
Proof. by vm_compute. Qed.

Example resetPassword_request :
  issue (Some "https://eduu.test") Sample.stored
    (via_api (authAPI_resetPassword (VStr "r-1") (VStr "pw")))
  = AxiosRequest
      {| baseURL := "https://eduu.test";
         withCredentials := true;
         method := "post";
         url := "/api/auth/reset-password";
         headers := {[ "Authorization" := "Bearer jwt-0" ]};
         cfg_data := Json (VObj [("token", VStr "r-1");
                                 ("new_password", VStr "pw")]) |}.
Proof. by vm_compute. Qed.

Section Interceptor.

Variable env : option string.
Variable ls : gmap string string.

Lemma getItem_stored (k t : string) :
  ls !! k = Some t → getItem ls k = VStr t.
Proof. intros H. unfold getItem. by rewrite H. Qed.

Lemma getItem_absent (k : string) :
  ls !! k = None → getItem ls k = VNull.
Proof. intros H. unfold getItem. by rewrite H. Qed.

Lemma truthy_VStr (t : string) : t ≠ "" → truthy (VStr t) = true.
Proof.
  intros Hne. simpl. destruct (String.eqb_spec t ""); [contradiction | done].
Qed.

Lemma interceptor_token (t : string) (config : axios_config) :
  ls !! "token" = Some t → t ≠ "" →
  interceptor ls config = set_Authorization config ("Bearer " +:+ t).
Proof.
  intros Hls Hne. unfold interceptor.
  rewrite (getItem_stored _ _ Hls), (truthy_VStr _ Hne). done.
Qed.

Lemma interceptor_no_token (config : axios_config) :
  ls !! "token" = None → interceptor ls config = config.
Proof.
  intros Hls. unfold interceptor. by rewrite (getItem_absent _ Hls).
Qed.

(** An empty string under the key is no token either. *)
Lemma interceptor_empty_token (config : axios_config) :
  ls !! "token" = Some "" → interceptor ls config = config.
Proof.
  intros Hls. unfold interceptor. by rewrite (getItem_stored _ _ Hls).
Qed.

Lemma prepare_no_Authorization (c : api_call) :
  headers (prepare env c) !! "Authorization" = None.
Proof. destruct c; reflexivity. Qed.

(** The interceptor touches the headers only. *)
Lemma interceptor_request_line (config : axios_config) :
  baseURL (interceptor ls config) = baseURL config
  ∧ method (interceptor ls config) = method config
  ∧ url (interceptor ls config) = url config
  ∧ cfg_data (interceptor ls config) = cfg_data config
  ∧ withCredentials (interceptor ls config) = withCredentials config.
Proof. unfold interceptor. by destruct (truthy _). Qed.

End Interceptor.

(** C1, as amended.  Every request issued through the wrapped client [api]
    carries [Authorization: Bearer <token>] when a non-empty token is stored
    under ['token']; the download helpers call [fetch] and the view helpers
    [window.open], and what they issue carries no [Authorization] header. *)
Theorem bearer_on_api_requests (env : option string)
  (ls : gmap string string) (t : string) :
  ls !! "token" = Some t → t ≠ "" →
  (∀ c : api_call,
     authorization (issue env ls (via_api c)) = Some ("Bearer " +:+ t))
  ∧ (∀ c : call,
       (∀ c', c ≠ via_api c') → authorization (issue env ls c) = None).
Proof.
  intros Hls Hne. split.
  - intros c. simpl. rewrite (interceptor_token ls t _ Hls Hne).
    simpl. apply lookup_insert_eq.
  - intros c Hdirect. destruct c as [c'| | | | | |]; try reflexivity.
    by destruct (Hdirect c').
Qed.

Lemma bearer_on_api_requests_witness :
  Sample.stored !! "token" = Some "jwt-0" ∧ "jwt-0" ≠ ""
  ∧ authorization (issue None Sample.stored (via_api profileAPI_get))
  = Some "Bearer jwt-0".
Proof.
  split; [reflexivity |]. split; [discriminate |].
  destruct (bearer_on_api_requests None Sample.stored "jwt-0") as [H _];
    [reflexivity | discriminate | apply H].
Defined.

(** C1 as stated fails: with a token in storage, the request of
    [papersAPI.download] carries no [Authorization] header. *)
Lemma download_without_bearer :
  Sample.stored !! "token" = Some "jwt-0"
  ∧ issue None Sample.stored (papersAPI_download (VNum 7))
    = FetchRequest "http://localhost:8001/api/papers/7/download"
        {| fetch_method := "GET"; credentials := "include" |}
  ∧ authorization (issue None Sample.stored (papersAPI_download (VNum 7)))
    = None.
Proof. by vm_compute. Qed.

(** C8.  With nothing stored under ['token'], the interceptor returns the
    configuration it was given, so every request issued through [api] is the
    configuration its table entry prepared, without an [Authorization]
    header. *)
Theorem no_token_no_header (env : option string) (ls : gmap string string) :
  ls !! "token" = None →
  (∀ config : axios_config, interceptor ls config = config)
  ∧ (∀ c : api_call,
       issue env ls (via_api c) = AxiosRequest (prepare env c)
       ∧ authorization (issue env ls (via_api c)) = None).
Proof.
  intros Hls. split.
  - intros config. by apply interceptor_no_token.
  - intros c. simpl. rewrite (interceptor_no_token ls _ Hls).
    split; [done | apply prepare_no_Authorization].
Qed.

Lemma no_token_no_header_witness :
  (∅ : gmap string string) !! "token" = None
  ∧ issue None ∅ (via_api (papersAPI_create [("title", "Algebra")]))
  = AxiosRequest (prepare None (papersAPI_create [("title", "Algebra")]))
  ∧ authorization (issue None ∅ (via_api (papersAPI_create [("title", "Algebra")])))
    = None.
Proof.
  split; [reflexivity |].
  destruct (no_token_no_header None ∅) as [_ H]; [reflexivity | apply H].
Defined.

(* ===================================================================== *)
(** ** Properties of the auth state holder *)
(* ===================================================================== *)

(** Unfolds the sequencing of a piece of provider code. *)
Ltac step_through :=
  cbv [checkAuth login register logout updateUser
       mbind mret action_bind action_ret await_api eval try_catch try_finally
       setCurrentUser setIsAdmin setLoading localStorage_getItem
       localStorage_setItem localStorage_removeItem] in *.

(** Splits on everything the code branches on. *)
Ltac by_cases :=
  intros; repeat (case_match; simplify_eq/=); simplify_eq/=;
  try done; try congruence.

Section Holder.

Variable env : option string.
Variable server : backend.

(** *** The three cells, operation by operation *)

Lemma checkAuth_returns (w : world) : (checkAuth env server w).2 = Returned ().
Proof. step_through. by_cases. Qed.

Lemma checkAuth_loading (w : world) : loading (checkAuth env server w).1 = false.
Proof. step_through. by_cases. Qed.

Lemma checkAuth_storage (w : world) :
  localStorage (checkAuth env server w).1 = localStorage w.
Proof. step_through. by_cases. Qed.

Lemma login_loading (email password : jsval) (w : world) :
  loading (login env server email password w).1 = loading w.
Proof. step_through. by_cases. Qed.

Lemma register_loading (userData : jsval) (w : world) :
  loading (register env server userData w).1 = loading w.
Proof. step_through. by_cases. Qed.

Lemma register_storage (userData : jsval) (w : world) :
  localStorage (register env server userData w).1 = localStorage w.
Proof. step_through. by_cases. Qed.

Lemma logout_loading (w : world) : loading (logout env server w).1 = loading w.
Proof. step_through. by_cases. Qed.

Lemma updateUser_loading (u : jsval) (w : world) :
  loading (updateUser u w).1 = loading w.
Proof. done. Qed.

(** *** The admin flag against the user object *)

Lemma checkAuth_derived (w : world) : isAdmin_derived (checkAuth env server w).1.
Proof. unfold isAdmin_derived, is_admin_of. step_through. by_cases. Qed.

Lemma login_derived (email password : jsval) (w w' : world) (user : jsval) :
  login env server email password w = (w', Returned user) → isAdmin_derived w'.
Proof.
  intros H. step_through. by_cases. unfold isAdmin_derived, is_admin_of.
  by_cases.
Qed.

Lemma register_derived (userData : jsval) (w w' : world) (user : jsval) :
  register env server userData w = (w', Returned user) → isAdmin_derived w'.
Proof.
  intros H. step_through. by_cases. unfold isAdmin_derived, is_admin_of.
  by_cases.
Qed.

Lemma logout_derived (w : world) : isAdmin_derived (logout env server w).1.
Proof. unfold isAdmin_derived, is_admin_of. step_through. by_cases. Qed.

(** [updateUser] keeps the flag in step exactly when the new object happens
    to agree with it. *)
Lemma updateUser_derived_iff (u : jsval) (w : world) :
  isAdmin_derived (updateUser u w).1 ↔ isAdmin w = is_admin_of u.
Proof. done. Qed.

End Holder.

(** *** Login *)

(** C3.  When a [login] call resolves, the backend has answered its request,
    the value it resolves to is the [user] of the response payload and is the
    current user held, and the payload's [access_token] is stored under the
    key ['token'] (as the string it is). *)
Theorem login_success (env : option string) (server : backend)
  (email password : jsval) (w w' : world) (user : jsval) :
  login env server email password w = (w', Returned user) →
  ∃ (res : response) (access_token : jsval),
    server (login_request env email password w) = Returned res
    ∧ get_prop (data res) "user" = Returned user
    ∧ get_prop (data res) "access_token" = Returned access_token
    ∧ currentUser w' = user
    ∧ localStorage w' !! "token" = Some (to_string access_token)
    ∧ (∀ t : string, access_token = VStr t →
         getItem (localStorage w') "token" = VStr t).
Proof.
  intros H. unfold login_request. step_through. by_cases.
  eexists _, _. repeat split; try done.
  - apply lookup_insert_eq.
  - intros t ->. unfold getItem, setItem. by rewrite lookup_insert_eq.
Qed.

Lemma login_success_witness :
  ∃ w',
    login None Sample.server_ok Sample.credentials_email
      Sample.credentials_password (mount ∅) = (w', Returned Sample.student)
    ∧ currentUser w' = Sample.student
    ∧ getItem (localStorage w') "token" = VStr "jwt-1".
Proof.
  eexists. split; [reflexivity |].
  destruct (login_success None Sample.server_ok Sample.credentials_email
              Sample.credentials_password (mount ∅) _ Sample.student eq_refl)
    as (res & access_token & Hres & _ & Htok & Huser & _ & Hget).
  split; [exact Huser |]. apply Hget.
  vm_compute in Hres. injection Hres as <-. vm_compute in Htok. congruence.
Defined.

(** A payload that carries a user object is enough for [login] to resolve. *)
Lemma login_resolves (env : option string) (server : backend)
  (email password : jsval) (w : world) (res : response)
  (fields profile : list (string * jsval)) :
  server (login_request env email password w) = Returned res →
  data res = VObj fields →
  assoc "user" fields = VObj profile →
  (login env server email password w).2 = Returned (VObj profile).
Proof.
  unfold login_request. intros Hres Hdata Huser. step_through.
  rewrite Hres, Hdata. simpl. rewrite Huser. done.
Qed.

(** A rejected request leaves everything as it was. *)
Lemma login_rejected (env : option string) (server : backend)
  (email password : jsval) (w : world) (e : exn) :
  server (login_request env email password w) = Thrown e →
  login env server email password w = (w, Thrown e).
Proof. unfold login_request. intros Hres. step_through. by rewrite Hres. Qed.

(** *** Logout *)

(** C4.  Whatever the backend does with the logout request, a [logout] call
    completes with the current user [null], [isAdmin] false and nothing
    stored under ['token']. *)
Theorem logout_clears (env : option string) (server : backend) (w : world) :
  logout env server w
  = ({| localStorage := removeItem (localStorage w) "token";
        currentUser := VNull;
        loading := loading w;
        isAdmin := false |}, Returned ())
  ∧ currentUser (logout env server w).1 = VNull
  ∧ isAdmin (logout env server w).1 = false
  ∧ localStorage (logout env server w).1 !! "token" = None
  ∧ getItem (localStorage (logout env server w).1) "token" = VNull.
Proof.
  assert (logout env server w
          = ({| localStorage := removeItem (localStorage w) "token";
                currentUser := VNull;
                loading := loading w;
                isAdmin := false |}, Returned ())) as ->.
  { step_through. by destruct (server _). }
  simpl. unfold getItem, removeItem. rewrite lookup_delete_eq. done.
Qed.

(** *** Register *)

(** C5, as amended.  A [register] call leaves client-side storage as it
    was, whether it resolves or not; when it resolves, the value is the
    [user] of the response payload and is the current user held. *)
Theorem register_keeps_storage (env : option string) (server : backend)
  (userData : jsval) (w : world) :
  localStorage (register env server userData w).1 = localStorage w
  ∧ (∀ user : jsval,
       (register env server userData w).2 = Returned user →
       currentUser (register env server userData w).1 = user
       ∧ ∃ res : response,
           server (register_request env userData w) = Returned res
           ∧ get_prop (data res) "user" = Returned user).
Proof.
  split; [apply register_storage |].
  unfold register_request. step_through. by_cases. eauto.
Qed.

Lemma register_keeps_storage_witness :
  (register None Sample.server_ok (VObj []) (mount ∅)).2
  = Returned Sample.student
  ∧ currentUser (register None Sample.server_ok (VObj []) (mount ∅)).1
    = Sample.student.
Proof.
  split; [reflexivity |].
  apply (proj2 (register_keeps_storage None Sample.server_ok (VObj [])
                  (mount ∅))).
  reflexivity.
Defined.

(** C5 as stated fails: the backend answers the register request with a
    payload that even carries an access token, [register] resolves, and
    nothing is stored under ['token']. *)
Lemma register_stores_no_token :
  Sample.server_ok (register_request None (VObj []) (mount ∅))
  = Returned {| data := VObj [("access_token", VStr "jwt-1");
                              ("user", Sample.student)];
                status := 200 |}
  ∧ (register None Sample.server_ok (VObj []) (mount ∅)).2
    = Returned Sample.student
  ∧ localStorage (register None Sample.server_ok (VObj []) (mount ∅)).1
      !! "token" = None.
Proof. by vm_compute. Qed.

(** *** The startup check *)

(** C6, as amended.  The startup check never changes client-side storage:
    whether the profile fetch fails or not, what was stored under ['token']
    is still there afterwards. *)
Theorem checkAuth_keeps_storage (env : option string) (server : backend)
  (w : world) :
  localStorage (checkAuth env server w).1 = localStorage w
  ∧ getItem (localStorage (checkAuth env server w).1) "token"
    = getItem (localStorage w) "token".
Proof. by rewrite checkAuth_storage. Qed.

(** C6 as stated fails: the profile fetch is rejected with status 401 and
    the token is still in storage after the check. *)
Lemma checkAuth_failure_keeps_token :
  Sample.server_401 (profile_request None (mount Sample.stored))
  = Thrown (AxiosError (Some 401) (VObj [("detail", VStr "Unauthorized")]))
  ∧ localStorage (checkAuth None Sample.server_401 (mount Sample.stored)).1
      !! "token" = Some "jwt-0".
Proof. by vm_compute. Qed.

(** C7.  Whenever the profile fetch fails, the check completes in the
    anonymous state: current user [null], [isAdmin] false, [loading] false.
    The state reached does not depend on the failure: two backends that both
    fail, each in its own way, lead to the same state. *)
Theorem checkAuth_failure_anonymous (env : option string) (w : world) :
  (∀ (server : backend) (e : exn),
     server (profile_request env w) = Thrown e →
     checkAuth env server w
     = ({| localStorage := localStorage w; currentUser := VNull;
           loading := false; isAdmin := false |}, Returned ()))
  ∧ (∀ (server1 server2 : backend) (e1 e2 : exn),
       server1 (profile_request env w) = Thrown e1 →
       server2 (profile_request env w) = Thrown e2 →
       checkAuth env server1 w = checkAuth env server2 w).
Proof.
  assert (∀ server e, server (profile_request env w) = Thrown e →
            checkAuth env server w
            = ({| localStorage := localStorage w; currentUser := VNull;
                  loading := false; isAdmin := false |}, Returned ())) as Hfail.
  { unfold profile_request. intros server e He. step_through.
    destruct (negb _); [done |]. cbv beta. by rewrite He. }
  split; [exact Hfail |].
  intros server1 server2 e1 e2 H1 H2.
  by rewrite (Hfail _ _ H1), (Hfail _ _ H2).
Qed.

Lemma checkAuth_failure_anonymous_witness :
  Sample.server_401 (profile_request None (mount Sample.stored))
  = Thrown (AxiosError (Some 401) (VObj [("detail", VStr "Unauthorized")]))
  ∧ Sample.server_down (profile_request None (mount Sample.stored))
    = Thrown (AxiosError None VUndefined)
  ∧ checkAuth None Sample.server_401 (mount Sample.stored)
    = checkAuth None Sample.server_down (mount Sample.stored)
  ∧ checkAuth None Sample.server_401 (mount Sample.stored)
    = ({| localStorage := Sample.stored; currentUser := VNull;
          loading := false; isAdmin := false |}, Returned ()).
Proof.
  destruct (checkAuth_failure_anonymous None (mount Sample.stored))
    as [Hfail Hsame].
  split; [reflexivity |]. split; [reflexivity |]. split.
  - eapply Hsame; reflexivity.
  - eapply Hfail; reflexivity.
Defined.

(** A resolved fetch, for comparison: the profile becomes the current user. *)
Lemma checkAuth_resolved (env : option string) (server : backend) (w : world)
  (res : response) (profile : list (string * jsval)) :
  truthy (getItem (localStorage w) "token") = true →
  server (profile_request env w) = Returned res →
  data res = VObj profile →
  checkAuth env server w
  = ({| localStorage := localStorage w; currentUser := VObj profile;
        loading := false;
        isAdmin := strict_eq_true (assoc "is_admin" profile) |}, Returned ()).
Proof.
  unfold profile_request. intros Htok Hres Hdata. step_through.
  rewrite Htok. cbv beta iota delta [negb]. rewrite Hres, Hdata. done.
Qed.

(** *** Rendering *)

Lemma step_loading (env : option string) (w : world) (ev : event) :
  loading (step env w ev) = if is_Effect ev then false else loading w.
Proof.
  destruct ev; simpl.
  - apply checkAuth_loading.
  - apply login_loading.
  - apply register_loading.
  - apply logout_loading.
  - done.
Qed.

Lemma run_loading (env : option string) (evs : list event) (w : world) :
  loading (run env w evs) = if existsb is_Effect evs then false else loading w.
Proof.
  unfold run. revert w. induction evs as [|ev evs IH]; intros w; [done |].
  simpl. rewrite IH, step_loading. by destruct (is_Effect ev), (existsb _ _).
Qed.

(** C9.  While [loading] is true the provider's child is [false] and the
    children are not rendered; they are rendered exactly when [loading] is
    false.  A freshly mounted provider is loading, and whatever happens to
    it, it stops loading only once the startup check has run. *)
Theorem children_wait_for_checkAuth (node : Type) (env : option string)
  (children : node) :
  (∀ w : world,
     loading w = true →
     provider_child (AuthProvider env children w) = ChildFalse)
  ∧ (∀ w : world,
       provider_child (AuthProvider env children w) = ChildNodes children
       ↔ loading w = false)
  ∧ (∀ ls : gmap string string,
       provider_child (AuthProvider env children (mount ls)) = ChildFalse)
  ∧ (∀ (ls : gmap string string) (evs : list event),
       provider_child (AuthProvider env children (run env (mount ls) evs))
       = ChildNodes children →
       ∃ server : backend, Effect server ∈ evs).
Proof.
  split; [by intros w; simpl; intros -> |].
  split; [by intros w; simpl; destruct (loading w) |].
  split; [done |].
  intros ls evs. simpl. rewrite run_loading. simpl.
  destruct (existsb is_Effect evs) eqn:Hex; [| done].
  intros _. apply existsb_exists in Hex as (ev & Hin & Hev).
  destruct ev; try done. exists server. by apply list_elem_of_In.
Qed.

Lemma children_wait_for_checkAuth_witness :
  loading (mount Sample.stored) = true
  ∧ provider_child (AuthProvider None "<App />" (mount Sample.stored))
    = ChildFalse
  ∧ provider_child
      (AuthProvider None "<App />"
         (run None (mount Sample.stored)
            [Effect (Sample.server_profile Sample.admin)]))
    = ChildNodes "<App />".
Proof.
  destruct (children_wait_for_checkAuth string None "<App />")
    as (Hloading & Hiff & _ & _).
  split; [reflexivity |]. split.
  - apply Hloading. reflexivity.
  - apply Hiff. reflexivity.
Defined.

(** *** The hook *)

(** C10.  Outside every [AuthProvider] the context is [undefined] and
    [useAuth] throws; under a provider it returns that provider's value. *)
Theorem useAuth_needs_provider :
  useAuth [] = Thrown (Error "useAuth must be used within an AuthProvider")
  ∧ (∀ (context : context_value) (outer : list context_value),
       useAuth (context :: outer) = Returned context)
  ∧ (∀ (node : Type) (env : option string) (children : node) (w : world)
       (outer : list context_value),
       useAuth (value (AuthProvider env children w) :: outer)
       = Returned (value (AuthProvider env children w))).
Proof. done. Qed.

(** *** The admin flag *)

(** C2 at its failing input.  A student is logged in and the flag agrees
    with the user object; [updateUser] then replaces the object by one whose
    [is_admin] is [true], and the flag is still false. *)
Theorem updateUser_leaves_isAdmin_stale :
  let w := run None (mount ∅)
             [Effect Sample.server_down;
              Login Sample.server_ok Sample.credentials_email
                Sample.credentials_password] in
  let w' := step None w (UpdateUser Sample.admin) in
  currentUser w = Sample.student
  ∧ isAdmin_derived w
  ∧ currentUser w' = Sample.admin
  ∧ is_admin_of (currentUser w') = true
  ∧ isAdmin w' = false
  ∧ ¬ isAdmin_derived w'.
Proof. by vm_compute. Qed.

(* ===================================================================== *)
(** ** Further properties of the HTTP client wrapper *)
(* ===================================================================== *)

(** X1.  The interceptor changes nothing of a request but its
    [Authorization] header: the request line, the body, the credentials flag
    and every other header (the multipart [Content-Type] of the upload
    functions, say) pass as they came. *)
Theorem interceptor_touches_only_Authorization (ls : gmap string string)
  (config : axios_config) :
  baseURL (interceptor ls config) = baseURL config
  ∧ method (interceptor ls config) = method config
  ∧ url (interceptor ls config) = url config
  ∧ cfg_data (interceptor ls config) = cfg_data config
  ∧ withCredentials (interceptor ls config) = withCredentials config
  ∧ (∀ k : string,
       k ≠ "Authorization" →
       headers (interceptor ls config) !! k = headers config !! k).
Proof.
  unfold interceptor. destruct (truthy _); [| done].
  repeat split. intros k Hk. simpl. by rewrite lookup_insert_ne.
Qed.

Lemma interceptor_touches_only_Authorization_witness :
  "Content-Type" ≠ "Authorization"
  ∧ headers (interceptor Sample.stored
               (prepare None (papersAPI_create [("title", "Algebra")])))
      !! "Content-Type"
    = Some "multipart/form-data".
Proof.
  split; [discriminate |].
  destruct (interceptor_touches_only_Authorization Sample.stored
              (prepare None (papersAPI_create [("title", "Algebra")])))
    as (_ & _ & _ & _ & _ & Hother).
  rewrite Hother; [reflexivity | discriminate].
Defined.

(** X2.  Running the interceptor on its own output changes nothing more, and
    a header the caller had put under [Authorization] is replaced, not kept,
    when a non-empty token is stored. *)
Theorem interceptor_idempotent (ls : gmap string string)
  (config : axios_config) :
  interceptor ls (interceptor ls config) = interceptor ls config
  ∧ (∀ t own : string,
       ls !! "token" = Some t → t ≠ "" →
       headers config !! "Authorization" = Some own →
       headers (interceptor ls config) !! "Authorization"
       = Some ("Bearer " +:+ t)).
Proof.
  split.
  - unfold interceptor. destruct (truthy _); [| done].
    unfold set_Authorization. simpl. by rewrite insert_insert_eq.
  - intros t own Hls Hne _. rewrite (interceptor_token ls t _ Hls Hne).
    simpl. apply lookup_insert_eq.
Qed.

Lemma interceptor_idempotent_witness :
  Sample.stored !! "token" = Some "jwt-0" ∧ "jwt-0" ≠ ""
  ∧ headers (interceptor Sample.stored
               (api_post None "/api/bookmarks" NoBody
                  {[ "Authorization" := "Basic abc" ]}))
      !! "Authorization"
    = Some "Bearer jwt-0".
Proof.
  split; [reflexivity |]. split; [discriminate |].
  destruct (interceptor_idempotent Sample.stored
              (api_post None "/api/bookmarks" NoBody
                 {[ "Authorization" := "Basic abc" ]})) as [_ H].
  apply (H "jwt-0" "Basic abc"); [reflexivity | discriminate | reflexivity].
Defined.

(** X3.  Whatever is stored and whichever function of the tables is called,
    a request through [api] goes to the configured base URL with
    credentials, by one of four methods, to a path under [/api/]. *)
Theorem api_request_shape (env : option string) (ls : gmap string string)
  (c : api_call) :
  ∃ config : axios_config,
    issue env ls (via_api c) = AxiosRequest config
    ∧ baseURL config = API_BASE_URL env
    ∧ withCredentials config = true
    ∧ method config ∈ ["get"; "post"; "put"; "delete"]
    ∧ String.prefix "/api/" (url config) = true.
Proof.
  eexists. split; [reflexivity |].
  destruct (interceptor_request_line ls (prepare env c))
    as (-> & -> & -> & _ & ->).
  destruct c; repeat split; rewrite ?elem_of_cons; auto 6.
Qed.

(* ===================================================================== *)
(** ** Further properties of the auth state holder *)
(* ===================================================================== *)

Section Storage.

Variable env : option string.
Variable server : backend.

Lemma login_storage_other (email password : jsval) (w : world) (k : string) :
  k ≠ "token" →
  localStorage (login env server email password w).1 !! k
  = localStorage w !! k.
Proof.
  intros Hk. step_through. by_cases; unfold setItem;
    by rewrite lookup_insert_ne.
Qed.

Lemma logout_storage (w : world) :
  localStorage (logout env server w).1 = removeItem (localStorage w) "token".
Proof. step_through. by destruct (server _). Qed.

End Storage.

Lemma step_storage_other (env : option string) (w : world) (ev : event) (k : string) :
  k ≠ "token" →
  localStorage (step env w ev) !! k = localStorage w !! k.
Proof.
  intros Hk. destruct ev; simpl.
  - by rewrite checkAuth_storage.
  - by apply login_storage_other.
  - by rewrite register_storage.
  - rewrite logout_storage. unfold removeItem. by rewrite lookup_delete_ne.
  - done.
Qed.

(** X4.  Login and the interceptor compose: once [login] has resolved on a
    payload whose [access_token] is a non-empty string, every request through
    [api] carries that token as its bearer. *)
Theorem login_then_bearer (env : option string) (server : backend)
  (email password : jsval) (w w' : world) (user : jsval) (res : response)
  (t : string) :
  login env server email password w = (w', Returned user) →
  server (login_request env email password w) = Returned res →
  get_prop (data res) "access_token" = Returned (VStr t) →
  t ≠ "" →
  ∀ c : api_call,
    authorization (issue env (localStorage w') (via_api c))
    = Some ("Bearer " +:+ t).
Proof.
  unfold login_request. intros Hlogin Hres Htok Hne c.
  assert (localStorage w' !! "token" = Some t) as Hls.
  { step_through. rewrite Hres, Htok in Hlogin. by_cases.
    unfold setItem. apply lookup_insert_eq. }
  simpl. rewrite (interceptor_token _ t _ Hls Hne). simpl.
  apply lookup_insert_eq.
Qed.

Lemma login_then_bearer_witness :
  authorization
    (issue None
       (localStorage
          (login None Sample.server_ok Sample.credentials_email
             Sample.credentials_password (mount ∅)).1)
       (via_api bookmarksAPI_getAll))
  = Some "Bearer jwt-1".
Proof.
  eapply (login_then_bearer None Sample.server_ok Sample.credentials_email
            Sample.credentials_password (mount ∅) _ Sample.student _ "jwt-1");
    [reflexivity | reflexivity | reflexivity | discriminate].
Defined.

(** X5.  Logout and the interceptor compose: after [logout], whatever the
    backend said, no request through [api] carries an [Authorization]
    header. *)
Theorem logout_then_no_bearer (env : option string) (server : backend)
  (w : world) (c : api_call) :
  authorization (issue env (localStorage (logout env server w).1) (via_api c))
  = None.
Proof.
  simpl. rewrite interceptor_no_token.
  - apply prepare_no_Authorization.
  - rewrite logout_storage. apply lookup_delete_eq.
Qed.

(** X6.  A failed startup check leaves the holder anonymous and the token in
    place, so the requests that follow still carry the token the backend has
    just refused. *)
Theorem failed_check_keeps_sending_token (env : option string)
  (server : backend) (w : world) (e : exn) (t : string) :
  localStorage w !! "token" = Some t → t ≠ "" →
  server (profile_request env w) = Thrown e →
  currentUser (checkAuth env server w).1 = VNull
  ∧ ∀ c : api_call,
      authorization
        (issue env (localStorage (checkAuth env server w).1) (via_api c))
      = Some ("Bearer " +:+ t).
Proof.
  unfold profile_request. intros Hls Hne He. split.
  - step_through. destruct (negb _); [done |]. cbv beta. by rewrite He.
  - intros c. rewrite checkAuth_storage. simpl.
    rewrite (interceptor_token _ t _ Hls Hne). simpl. apply lookup_insert_eq.
Qed.

Lemma failed_check_keeps_sending_token_witness :
  currentUser (checkAuth None Sample.server_401 (mount Sample.stored)).1 = VNull
  ∧ authorization
      (issue None
         (localStorage (checkAuth None Sample.server_401 (mount Sample.stored)).1)
         (via_api profileAPI_get))
    = Some "Bearer jwt-0".
Proof.
  destruct (failed_check_keeps_sending_token None Sample.server_401
              (mount Sample.stored)
              (AxiosError (Some 401) (VObj [("detail", VStr "Unauthorized")]))
              "jwt-0") as [Huser Hreq];
    [reflexivity | discriminate | reflexivity |].
  split; [exact Huser | apply Hreq].
Defined.

(** X7.  Whatever happens to the provider, it reads and writes storage under
    the key ['token'] only: every other key holds what it held. *)
Theorem only_token_key_touched (env : option string) (evs : list event)
  (w : world) (k : string) :
  k ≠ "token" →
  localStorage (run env w evs) !! k = localStorage w !! k.
Proof.
  intros Hk. unfold run. revert w.
  induction evs as [|ev evs IH]; intros w; [done |].
  simpl. rewrite IH. by apply step_storage_other.
Qed.

Lemma only_token_key_touched_witness :
  localStorage
    (run None (mount {[ "theme" := "dark" ]})
       [Effect Sample.server_down;
        Login Sample.server_ok Sample.credentials_email
          Sample.credentials_password;
        Logout Sample.server_401]) !! "theme"
  = Some "dark".
Proof.
  rewrite only_token_key_touched; [reflexivity | discriminate].
Defined.

(** X8.  Only [login] and [logout] change storage: the startup check,
    [register] and [updateUser] leave all of it as it was. *)
Theorem storage_changes_only_at_login_logout (env : option string)
  (w : world) (ev : event) :
  (∀ server email password, ev ≠ Login server email password) →
  (∀ server, ev ≠ Logout server) →
  localStorage (step env w ev) = localStorage w.
Proof.
  intros Hlogin Hlogout. destruct ev; simpl.
  - apply checkAuth_storage.
  - by destruct (Hlogin server email password).
  - apply register_storage.
  - by destruct (Hlogout server).
  - done.
Qed.

Lemma storage_changes_only_at_login_logout_witness :
  localStorage (step None (mount Sample.stored)
                  (Register Sample.server_ok (VObj [])))
  = Sample.stored.
Proof.
  apply (storage_changes_only_at_login_logout None (mount Sample.stored)
           (Register Sample.server_ok (VObj []))); discriminate.
Defined.

(** X9.  [loading] never returns: once it is false it stays false whatever
    follows, so children that have been rendered stay rendered. *)
Theorem loading_never_returns (node : Type) (env : option string)
  (children : node) (w : world) (evs : list event) :
  loading w = false →
  loading (run env w evs) = false
  ∧ provider_child (AuthProvider env children (run env w evs))
    = ChildNodes children.
Proof.
  intros Hw. assert (loading (run env w evs) = false) as Hrun.
  { rewrite run_loading, Hw. by destruct (existsb _ _). }
  split; [done |]. simpl. by rewrite Hrun.
Qed.

Lemma loading_never_returns_witness :
  loading (run None (run None (mount ∅) [Effect Sample.server_down])
             [Login Sample.server_401 VNull VNull; Logout Sample.server_down])
  = false.
Proof.
  apply (loading_never_returns unit None tt
           (run None (mount ∅) [Effect Sample.server_down])).
  reflexivity.
Defined.

Lemma strict_eq_true_iff (v : jsval) : strict_eq_true v = true ↔ v = VBool true.
Proof. destruct v as [| |[|]| | | |]; split; by intros. Qed.

(** X10.  A request the backend rejects leaves everything as it was:
    [login] and [register] reject with the very error of the request, the
    storage and the three cells untouched. *)
Theorem rejected_request_changes_nothing (env : option string)
  (server : backend) (w : world) (e : exn) :
  (∀ email password : jsval,
     server (login_request env email password w) = Thrown e →
     login env server email password w = (w, Thrown e))
  ∧ (∀ userData : jsval,
       server (register_request env userData w) = Thrown e →
       register env server userData w = (w, Thrown e)).
Proof.
  split.
  - intros email password. apply login_rejected.
  - unfold register_request. intros userData He. step_through. by rewrite He.
Qed.

Lemma rejected_request_changes_nothing_witness :
  login None Sample.server_down Sample.credentials_email
    Sample.credentials_password (mount Sample.stored)
  = (mount Sample.stored, Thrown (AxiosError None VUndefined)).
Proof.
  apply (proj1 (rejected_request_changes_nothing None Sample.server_down
                  (mount Sample.stored) (AxiosError None VUndefined))).
  reflexivity.
Defined.

(** X11.  An answer without a body ([data] is [null] or [undefined]) makes
    [login] and [register] fail with a [TypeError] before they have changed
    anything. *)
Theorem empty_answer_changes_nothing (env : option string) (server : backend)
  (w : world) (res : response) :
  data res = VNull ∨ data res = VUndefined →
  (∀ email password : jsval,
     server (login_request env email password w) = Returned res →
     login env server email password w = (w, Thrown TypeError))
  ∧ (∀ userData : jsval,
       server (register_request env userData w) = Returned res →
       register env server userData w = (w, Thrown TypeError)).
Proof.
  unfold login_request, register_request. intros Hdata. split.
  - intros email password Hres. step_through. rewrite Hres.
    by destruct Hdata as [-> | ->].
  - intros userData Hres. step_through. rewrite Hres.
    by destruct Hdata as [-> | ->].
Qed.

Lemma empty_answer_changes_nothing_witness :
  register None (Sample.server_profile VNull) (VObj []) (mount Sample.stored)
  = (mount Sample.stored, Thrown TypeError).
Proof.
  apply (proj2 (empty_answer_changes_nothing None (Sample.server_profile VNull)
                  (mount Sample.stored) {| data := VNull; status := 200 |}
                  (or_introl eq_refl))).
  reflexivity.
Defined.

(** X12.  A login payload that is an object without a user object
    ([user] is [null] or missing) makes [login] fail with a [TypeError] half
    way: the token has been stored and the current user replaced by then,
    and [isAdmin] is what it was. *)
Theorem login_without_user_half_done (env : option string) (server : backend)
  (email password : jsval) (w : world) (res : response)
  (fields : list (string * jsval)) :
  server (login_request env email password w) = Returned res →
  data res = VObj fields →
  assoc "user" fields = VNull ∨ assoc "user" fields = VUndefined →
  login env server email password w
  = ({| localStorage :=
          setItem (localStorage w) "token" (assoc "access_token" fields);
        currentUser := assoc "user" fields;
        loading := loading w;
        isAdmin := isAdmin w |}, Thrown TypeError).
Proof.
  unfold login_request. intros Hres Hdata Huser. step_through.
  rewrite Hres, Hdata. simpl. by destruct Huser as [-> | ->].
Qed.

Lemma login_without_user_half_done_witness :
  let server : backend := Sample.server_profile
                            (VObj [("access_token", VStr "jwt-2")]) in
  let w := run None (mount ∅)
             [Effect (Sample.server_profile Sample.admin)] in
  (login None server VNull VNull w).2 = Thrown TypeError
  ∧ localStorage (login None server VNull VNull w).1 !! "token" = Some "jwt-2"
  ∧ currentUser (login None server VNull VNull w).1 = VUndefined.
Proof.
  intros server w.
  rewrite (login_without_user_half_done None server VNull VNull w
             {| data := VObj [("access_token", VStr "jwt-2")]; status := 200 |}
             [("access_token", VStr "jwt-2")]);
    [by vm_compute | reflexivity | reflexivity | by right].
Defined.

(** X13.  With nothing, or an empty string, stored under ['token'] the
    startup check asks no backend: whatever the backend would answer, the
    holder is anonymous and done loading. *)
Theorem checkAuth_without_token_asks_nobody (env : option string)
  (server : backend) (w : world) :
  truthy (getItem (localStorage w) "token") = false →
  checkAuth env server w
  = ({| localStorage := localStorage w; currentUser := VNull;
        loading := false; isAdmin := false |}, Returned ()).
Proof. intros Htok. step_through. by rewrite Htok. Qed.

Lemma checkAuth_without_token_asks_nobody_witness :
  checkAuth None (Sample.server_profile Sample.admin)
    (mount {[ "token" := "" ]})
  = ({| localStorage := {[ "token" := "" ]}; currentUser := VNull;
        loading := false; isAdmin := false |}, Returned ()).
Proof.
  rewrite (checkAuth_without_token_asks_nobody None
             (Sample.server_profile Sample.admin) (mount {[ "token" := "" ]}));
    reflexivity.
Defined.

(** X14.  When the profile fetch resolves, whatever body it carries becomes
    the current user, object or not; only [null] and [undefined] end in the
    anonymous state.  [isAdmin] is read off that body. *)
Theorem checkAuth_resolved_cases (env : option string) (server : backend)
  (w : world) (res : response) :
  truthy (getItem (localStorage w) "token") = true →
  server (profile_request env w) = Returned res →
  checkAuth env server w
  = ({| localStorage := localStorage w;
        currentUser := match data res with
                       | VUndefined | VNull => VNull
                       | user => user
                       end;
        loading := false;
        isAdmin := is_admin_of (data res) |}, Returned ()).
Proof.
  unfold profile_request, is_admin_of. intros Htok Hres. step_through.
  rewrite Htok. cbv beta iota delta [negb]. rewrite Hres.
  by destruct (data res).
Qed.

Lemma checkAuth_resolved_cases_witness :
  checkAuth None (Sample.server_profile (VStr "<!doctype html>"))
    (mount Sample.stored)
  = ({| localStorage := Sample.stored;
        currentUser := VStr "<!doctype html>";
        loading := false; isAdmin := false |}, Returned ()).
Proof.
  rewrite (checkAuth_resolved_cases None
             (Sample.server_profile (VStr "<!doctype html>"))
             (mount Sample.stored)
             {| data := VStr "<!doctype html>"; status := 200 |});
    reflexivity.
Defined.

(** X15.  Only the boolean [true] makes an admin: after a [login] or a
    [register] that resolved, [isAdmin] is true exactly when the [is_admin]
    of the user returned is [true] itself, not 1 and not a string. *)
Theorem admin_needs_literal_true (env : option string) (server : backend)
  (w w' : world) (user : jsval) :
  (∀ email password : jsval,
     login env server email password w = (w', Returned user) →
     (isAdmin w' = true ↔ get_prop user "is_admin" = Returned (VBool true)))
  ∧ (∀ userData : jsval,
       register env server userData w = (w', Returned user) →
       (isAdmin w' = true ↔ get_prop user "is_admin" = Returned (VBool true))).
Proof.
  split; intros; step_through; by_cases;
    rewrite strict_eq_true_iff; split; congruence.
Qed.

Lemma admin_needs_literal_true_witness :
  let server : backend :=
    Sample.server_profile
      (VObj [("user", VObj [("is_admin", VNum 1)])]) in
  (register None server (VObj []) (mount ∅)).2
  = Returned (VObj [("is_admin", VNum 1)])
  ∧ isAdmin (register None server (VObj []) (mount ∅)).1 ≠ true.
Proof.
  intros server. split; [reflexivity |].
  intros Hadmin.
  apply (proj2 (admin_needs_literal_true None server (mount ∅)
                  (register None server (VObj []) (mount ∅)).1
                  (VObj [("is_admin", VNum 1)])) (VObj []) eq_refl) in Hadmin.
  discriminate Hadmin.
Defined.

(** X16.  Login followed by logout leaves no token behind, whether the
    login went through or not: storage is what it was, less the key
    ['token'], and the holder is anonymous. *)
Theorem login_logout_round_trip (env : option string)
  (server1 server2 : backend) (email password : jsval) (w : world) :
  let w' := (logout env server2
               (login env server1 email password w).1).1 in
  localStorage w' = delete "token" (localStorage w)
  ∧ (localStorage w !! "token" = None → localStorage w' = localStorage w)
  ∧ currentUser w' = VNull
  ∧ isAdmin w' = false.
Proof.
  intros w'.
  assert (localStorage w' = delete "token" (localStorage w)) as Hls.
  { unfold w'. rewrite logout_storage. unfold removeItem.
    step_through. by_cases; unfold setItem; by rewrite delete_insert_eq. }
  split; [done |]. split.
  - intros Hnone. rewrite Hls. by apply delete_id.
  - unfold w'. step_through. by destruct (server2 _).
Qed.

Lemma login_logout_round_trip_witness :
  (∅ : gmap string string) !! "token" = None
  ∧ localStorage
      (run None (mount ∅)
         [Login Sample.server_ok Sample.credentials_email
            Sample.credentials_password;
          Logout Sample.server_down])
    = ∅.
Proof.
  split; [reflexivity |].
  destruct (login_logout_round_trip None Sample.server_ok Sample.server_down
              Sample.credentials_email Sample.credentials_password (mount ∅))
    as (_ & Hsame & _).
  apply Hsame. reflexivity.
Defined.

(** X17.  A login payload with a user but no [access_token] still logs in:
    the string [undefined] is what gets stored, and it is sent as the bearer
    from then on. *)
Theorem login_without_token_sends_undefined (env : option string)
  (server : backend) (email password : jsval) (w : world) (res : response)
  (fields profile : list (string * jsval)) :
  server (login_request env email password w) = Returned res →
  data res = VObj fields →
  assoc "access_token" fields = VUndefined →
  assoc "user" fields = VObj profile →
  (login env server email password w).2 = Returned (VObj profile)
  ∧ localStorage (login env server email password w).1 !! "token"
    = Some "undefined"
  ∧ ∀ c : api_call,
      authorization
        (issue env (localStorage (login env server email password w).1)
           (via_api c))
      = Some "Bearer undefined".
Proof.
  unfold login_request. intros Hres Hdata Htok Huser.
  assert (login env server email password w
          = ({| localStorage := <["token" := "undefined"]> (localStorage w);
                currentUser := VObj profile;
                loading := loading w;
                isAdmin := strict_eq_true (assoc "is_admin" profile) |},
             Returned (VObj profile))) as ->.
  { step_through. rewrite Hres, Hdata. simpl. rewrite Htok, Huser. done. }
  split; [done |]. split; [apply lookup_insert_eq |].
  intros c. simpl.
  rewrite (interceptor_token _ "undefined"); [| apply lookup_insert_eq | done].
  simpl. apply lookup_insert_eq.
Qed.

Lemma login_without_token_sends_undefined_witness :
  let server : backend :=
    Sample.server_profile (VObj [("user", Sample.student)]) in
  authorization
    (issue None (localStorage (login None server VNull VNull (mount ∅)).1)
       (via_api statsAPI_get))
  = Some "Bearer undefined".
Proof.
  intros server.
  destruct (login_without_token_sends_undefined None server VNull VNull
              (mount ∅) {| data := VObj [("user", Sample.student)];
                           status := 200 |}
              [("user", Sample.student)]
              [("id", VNum 7); ("email", VStr "s@edu.test");
               ("is_admin", VBool false)])
    as (_ & _ & Hreq); [reflexivity | reflexivity | reflexivity | reflexivity |].
  apply Hreq.
Defined.

(* ===================================================================== *)
(** ** Properties of the download helpers *)
(* ===================================================================== *)

#[local] Arguments String.append : simpl nomatch.

Section Split.

Variable sep : string.
Hypothesis sep_nonempty : sep ≠ "".

Lemma prefix_iff (p s : string) :
  String.prefix p s = true ↔ ∃ q : string, s = p +:+ q.
Proof.
  revert s. induction p as [|a p IH]; intros s.
  - split; [intros _; by exists s | by destruct s].
  - destruct s as [|b s]; simpl.
    + split; [done | by intros [q Hq]].
    + destruct (Ascii.ascii_dec a b) as [-> | Hab].
      * rewrite IH. split; intros [q Hq]; exists q; simpl in *; congruence.
      * split; [done | intros [q Hq]; simpl in Hq; congruence].
Qed.

Lemma append_inj_length (p q x y : string) :
  p +:+ x = q +:+ y → String.length p = String.length q → p = q ∧ x = y.
Proof.
  revert q. induction p as [|a p IH]; intros [|b q] Heq Hlen; try done.
  simpl in *. injection Heq as -> Heq. injection Hlen as Hlen.
  by destruct (IH q Heq Hlen) as [-> ->].
Qed.

Lemma drop_append (p q : string) : drop (String.length p) (p +:+ q) = q.
Proof. induction p as [|a p IH]; [by destruct q | done]. Qed.

Lemma find_sep_unfold (s : string) :
  find_sep sep s
  = if String.prefix sep s then Some ("", drop (String.length sep) s)
    else match s with
         | EmptyString => None
         | String c s' =>
             match find_sep sep s' with
             | Some (before, after) => Some (String c before, after)
             | None => None
             end
         end.
Proof. by destruct s. Qed.

(** [find_sep] finds an occurrence, and the first one. *)
Lemma find_sep_Some (s before after : string) :
  find_sep sep s = Some (before, after) →
  s = before +:+ sep +:+ after
  ∧ ∀ p q : string,
      s = p +:+ sep +:+ q → (String.length before ≤ String.length p)%nat.
Proof.
  revert before. induction s as [|c s IH]; intros before;
    rewrite find_sep_unfold;
    destruct (String.prefix sep _) eqn:Hpre.
  - apply prefix_iff in Hpre as [q Hq]. by destruct sep.
  - done.
  - intros [= <- <-]. apply prefix_iff in Hpre as [q ->].
    rewrite drop_append. split; [done | simpl; lia].
  - destruct (find_sep sep s) as [[b a]|] eqn:Hfind; [| done].
    intros [= <- <-]. destruct (IH b eq_refl) as [-> Hfirst].
    split; [done |]. intros [|c' p] q Heq.
    + assert (String.prefix sep (String c (b +:+ sep +:+ a)) = true) as Hp
        by (apply prefix_iff; by exists q).
      congruence.
    + simpl in *. injection Heq as -> Heq. apply Hfirst in Heq. lia.
Qed.

Lemma find_sep_None (s : string) :
  find_sep sep s = None ↔ ¬ occurs sep s.
Proof.
  split.
  - induction s as [|c s IH]; rewrite find_sep_unfold;
      destruct (String.prefix sep _) eqn:Hpre; try done.
    + intros _ (p & q & Heq). destruct p; [by destruct sep | done].
    + destruct (find_sep sep s) as [[b a]|]; [done |]. intros _ ([|c' p] & q & Heq).
      * assert (String.prefix sep (String c s) = true) as Hp
          by (apply prefix_iff; by exists q).
        congruence.
      * simpl in Heq. injection Heq as -> ->. apply IH; [done |]. by exists p, q.
  - intros Hno. destruct (find_sep sep s) as [[b a]|] eqn:Hfind; [| done].
    destruct Hno. apply find_sep_Some in Hfind as [-> _]. by exists b, a.
Qed.

Lemma find_sep_first (pre rest : string) :
  (∀ p q : string,
     pre +:+ sep +:+ rest = p +:+ sep +:+ q →
     (String.length pre ≤ String.length p)%nat) →
  find_sep sep (pre +:+ sep +:+ rest) = Some (pre, rest).
Proof.
  intros Hfirst.
  destruct (find_sep sep (pre +:+ sep +:+ rest)) as [[b a]|] eqn:Hfind.
  - apply find_sep_Some in Hfind as [Heq Hmin].
    pose proof (Hfirst _ _ Heq) as H1. pose proof (Hmin _ _ eq_refl) as H2.
    assert (String.length b = String.length pre) as Hlen by lia.
    destruct (append_inj_length _ _ _ _ Heq (eq_sym Hlen)) as [-> Hrest].
    by apply append_inj_length in Hrest as [_ ->].
  - apply find_sep_None in Hfind. destruct Hfind. by exists pre, rest.
Qed.

End Split.

Lemma split_pieces_single (sep s : string) (fuel : nat) :
  find_sep sep s = None → split_pieces fuel sep s = [s].
Proof. intros Hnone. destruct fuel; simpl; by rewrite ?Hnone. Qed.

Lemma split_pieces_found (sep s before after : string) (fuel : nat) :
  find_sep sep s = Some (before, after) →
  split_pieces (S fuel) sep s = before :: split_pieces fuel sep after.
Proof. intros Hfind. simpl. by rewrite Hfind. Qed.

(** Joining the pieces with the separator gives the string back. *)
Lemma split_pieces_concat (sep s : string) (fuel : nat) :
  sep ≠ "" → String.concat sep (split_pieces fuel sep s) = s.
Proof.
  intros Hsep. revert s. induction fuel as [|fuel IH]; intros s; [done |].
  simpl. destruct (find_sep sep s) as [[b a]|] eqn:Hfind; [| done].
  apply (find_sep_Some sep Hsep) in Hfind as [-> _].
  specialize (IH a). simpl.
  destruct (split_pieces fuel sep a) as [|x l] eqn:Hsplit.
  - destruct fuel; simpl in Hsplit; [done |].
    by destruct (find_sep sep a) as [[? ?]|].
  - by rewrite IH.
Qed.

Lemma remove_all_gone (c : Ascii.ascii) (s : string) :
  ¬ occurs (String c "") (remove_all c s).
Proof.
  intros (p & q & Heq). revert p Heq.
  induction s as [|x s IH]; intros p Heq; simpl in Heq.
  - by destruct p.
  - destruct (Ascii.eqb_spec x c) as [-> | Hxc]; [by apply (IH p) |].
    destruct p as [|y p]; simpl in Heq; injection Heq as -> Heq; [done |].
    by apply (IH p).
Qed.

Lemma file_name_header (h fallback : string) :
  file_name (Some h) fallback
  = match split_pieces (String.length h) "filename=" h !! 1%nat with
    | Some piece =>
        if truthy (VStr (remove_all double_quote piece))
        then remove_all double_quote piece else fallback
    | None => fallback
    end.
Proof. reflexivity. Qed.

(** X18.  The name a download is saved under is never empty and never holds
    a double quote, provided the fallback name has these properties (the
    three the helpers use have them). *)
Theorem file_name_clean (header : option string) (fallback : string) :
  fallback ≠ "" →
  ¬ occurs (String double_quote "") fallback →
  file_name header fallback ≠ ""
  ∧ ¬ occurs (String double_quote "") (file_name header fallback).
Proof.
  intros Hne Hquote. destruct header as [h|]; [| done].
  rewrite file_name_header.
  destruct (_ !! 1%nat) as [piece|]; [| done].
  simpl. destruct (String.eqb_spec (remove_all double_quote piece) "") as [|Hpiece];
    simpl; [done |].
  split; [done | apply remove_all_gone].
Qed.

Lemma file_name_clean_witness :
  file_name (Some SamplePage.disposition) "paper.pdf" ≠ ""
  ∧ ¬ occurs (String double_quote "")
        (file_name (Some SamplePage.disposition) "paper.pdf").
Proof.
  apply file_name_clean; [discriminate |].
  apply find_sep_None; [discriminate | reflexivity].
Defined.

(** X19.  Without a [content-disposition] header, or with one in which
    [filename=] does not occur (one that only has the [filename*=] form,
    say), the download is saved under the fallback name. *)
Theorem file_name_fallback (fallback : string) :
  file_name None fallback = fallback
  ∧ ∀ h : string, ¬ occurs "filename=" h → file_name (Some h) fallback = fallback.
Proof.
  split; [done |]. intros h Hno. rewrite file_name_header.
  rewrite split_pieces_single; [done |]. by apply find_sep_None.
Qed.

Lemma file_name_fallback_witness :
  ¬ occurs "filename=" "attachment; filename*=UTF-8''algebra.pdf"
  ∧ file_name (Some "attachment; filename*=UTF-8''algebra.pdf") "note.pdf"
    = "note.pdf".
Proof.
  assert (¬ occurs "filename=" "attachment; filename*=UTF-8''algebra.pdf")
    as Hno by (apply find_sep_None; [discriminate | reflexivity]).
  split; [exact Hno |].
  apply (proj2 (file_name_fallback "note.pdf")). exact Hno.
Defined.

(** X20.  When [filename=] occurs in the header, the name is all that
    follows its first occurrence, with the double quotes removed; if no
    second [filename=] follows, that is the whole rest of the header, further
    parameters included, and the fallback only when nothing is left. *)
Theorem file_name_after_first (pre rest fallback : string) :
  (∀ p q : string,
     pre +:+ "filename=" +:+ rest = p +:+ "filename=" +:+ q →
     (String.length pre ≤ String.length p)%nat) →
  ¬ occurs "filename=" rest →
  file_name (Some (pre +:+ "filename=" +:+ rest)) fallback
  = if String.eqb (remove_all double_quote rest) ""
    then fallback else remove_all double_quote rest.
Proof.
  intros Hfirst Hrest. rewrite file_name_header.
  assert (∃ n, String.length (pre +:+ "filename=" +:+ rest) = S n) as [n ->].
  { clear. induction pre as [|c pre IH]; simpl; eauto. }
  rewrite split_pieces_found with (before := pre) (after := rest);
    [| by apply find_sep_first].
  rewrite split_pieces_single; [| by apply find_sep_None].
  simpl. by destruct (String.eqb _ _).
Qed.

Lemma file_name_after_first_witness :
  file_name
    (Some ("attachment; " +:+ "filename="
           +:+ (SamplePage.quoted "algebra.pdf" +:+ "; size=3")))
    "paper.pdf"
  = "algebra.pdf; size=3".
Proof.
  rewrite file_name_after_first; [reflexivity | |].
  - intros p q Heq.
    eapply (find_sep_Some "filename="); [discriminate | | exact Heq].
    reflexivity.
  - apply find_sep_None; [discriminate | reflexivity].
Defined.

Section Page.

Variable env : option string.
Variable fetch : fetcher.
Variables section fallback : string.
Variable id : jsval.

Lemma filter_fresh (l : list nat) : filter (λ n, n ≠ fresh l) l = l.
Proof.
  pose proof (infinite_is_fresh l) as Hfresh. revert Hfresh.
  generalize (fresh l). intros x Hx.
  induction l as [|n l IH]; [done |].
  rewrite filter_cons. apply not_elem_of_cons in Hx as [Hne Hx].
  rewrite decide_True by done. by rewrite IH.
Qed.

(** From the object URL to the removal of the anchor: the file is handed to
    the browser and the page is as before. *)
Lemma save_and_clean_up (content name : string) (p : page) :
  (u ← createObjectURL content;
   a ← createElement_a;
   let a := set_href a u in
   let a := set_download a name in
   appendChild a;; click a;; revokeObjectURL u;; removeChild a) p
  = ({| body_children := body_children p;
        object_urls := object_urls p;
        saved := saved p ++ [(name, content)] |}, Returned ()).
Proof.
  cbv [mbind script_bind createObjectURL createElement_a set_href set_download
       appendChild click revokeObjectURL removeChild
       node href download body_children object_urls saved].
  rewrite lookup_insert_eq.
  rewrite decide_True by (apply elem_of_app; right; apply list_elem_of_singleton; done).
  f_equal. f_equal.
  - rewrite filter_app, filter_fresh, filter_cons, decide_False by (by intros []).
    by rewrite app_nil_r.
  - apply delete_insert_id, not_elem_of_dom, is_fresh.
Qed.

End Page.

Lemma download_helper_ok (env : option string) (fetch : fetcher)
  (section fallback : string) (id : jsval) (p : page)
  (response : fetch_response) (content : string) :
  fetch (download_url env section (to_string id)) download_init
  = Returned response →
  ok response = true →
  blob response = Returned content →
  download_helper env fetch section fallback id p
  = ({| body_children := body_children p;
        object_urls := object_urls p;
        saved := saved p
                 ++ [(file_name
                        (response_headers response !! "content-disposition")
                        fallback, content)] |}, Returned ()).
Proof.
  intros Hfetch Hok Hblob.
  rewrite <- (save_and_clean_up content
                (file_name (response_headers response !! "content-disposition")
                   fallback) p).
  unfold download_helper.
  unfold mbind at 1, script_bind at 1, await at 1. rewrite Hfetch, Hok.
  unfold mbind at 1, script_bind at 1, await at 1. cbv beta iota delta [negb].
  by rewrite Hblob.
Qed.

(** X21.  A download that goes through hands exactly one file to the
    browser: the body of the response, under the name read off its
    [content-disposition] header or else the fallback name of its table.
    The function then resolves. *)
Theorem download_saves_response (env : option string) (fetch : fetcher)
  (section fallback : string) (id : jsval) (p : page)
  (response : fetch_response) (content : string) :
  fetch (download_url env section (to_string id)) download_init
  = Returned response →
  ok response = true →
  blob response = Returned content →
  (download_helper env fetch section fallback id p).2 = Returned ()
  ∧ saved (download_helper env fetch section fallback id p).1
    = (saved p
       ++ [(file_name (response_headers response !! "content-disposition")
              fallback, content)])%list.
Proof.
  intros Hfetch Hok Hblob.
  by rewrite (download_helper_ok _ _ _ _ _ _ _ _ Hfetch Hok Hblob).
Qed.

Lemma download_saves_response_witness :
  saved (papersAPI.download None
           (SamplePage.fetch_pdf (Some SamplePage.disposition)) (VNum 7)
           SamplePage.some_page).1
  = [("algebra.pdf", "%PDF-1.7")].
Proof.
  destruct (download_saves_response None
              (SamplePage.fetch_pdf (Some SamplePage.disposition))
              "papers" "paper.pdf" (VNum 7) SamplePage.some_page
              (SamplePage.pdf_response (Some SamplePage.disposition))
              "%PDF-1.7") as [_ Hsaved]; [reflexivity | reflexivity | reflexivity |].
  unfold papersAPI.download. rewrite Hsaved. reflexivity.
Defined.

Lemma download_helper_rejected (env : option string) (fetch : fetcher)
  (section fallback : string) (id : jsval) (p : page) (e : exn) :
  fetch (download_url env section (to_string id)) download_init = Thrown e →
  download_helper env fetch section fallback id p = (p, Thrown e).
Proof.
  intros Hfetch. unfold download_helper.
  unfold mbind at 1, script_bind at 1, await at 1. by rewrite Hfetch.
Qed.

Lemma download_helper_not_ok (env : option string) (fetch : fetcher)
  (section fallback : string) (id : jsval) (p : page)
  (response : fetch_response) :
  fetch (download_url env section (to_string id)) download_init
  = Returned response →
  ok response = false →
  download_helper env fetch section fallback id p
  = (p, Thrown (Error "Download failed")).
Proof.
  intros Hfetch Hok. unfold download_helper.
  unfold mbind at 1, script_bind at 1, await at 1. by rewrite Hfetch, Hok.
Qed.

Lemma download_helper_unreadable (env : option string) (fetch : fetcher)
  (section fallback : string) (id : jsval) (p : page)
  (response : fetch_response) (e : exn) :
  fetch (download_url env section (to_string id)) download_init
  = Returned response →
  ok response = true →
  blob response = Thrown e →
  download_helper env fetch section fallback id p = (p, Thrown e).
Proof.
  intros Hfetch Hok Hblob. unfold download_helper.
  unfold mbind at 1, script_bind at 1, await at 1. rewrite Hfetch, Hok.
  unfold mbind at 1, script_bind at 1, await at 1.
  cbv beta iota delta [negb]. by rewrite Hblob.
Qed.

(** X22.  A download that cannot be had fails without a trace: when the
    request is rejected, when the response is not [ok] (the error is then
    [Download failed]) and when the body cannot be read, the page is exactly
    as it was and nothing is saved. *)
Theorem download_failure_leaves_page (env : option string) (fetch : fetcher)
  (section fallback : string) (id : jsval) (p : page) :
  (∀ e : exn,
     fetch (download_url env section (to_string id)) download_init = Thrown e →
     download_helper env fetch section fallback id p = (p, Thrown e))
  ∧ (∀ response : fetch_response,
       fetch (download_url env section (to_string id)) download_init
       = Returned response →
       ok response = false →
       download_helper env fetch section fallback id p
       = (p, Thrown (Error "Download failed")))
  ∧ (∀ (response : fetch_response) (e : exn),
       fetch (download_url env section (to_string id)) download_init
       = Returned response →
       ok response = true →
       blob response = Thrown e →
       download_helper env fetch section fallback id p = (p, Thrown e)).
Proof.
  split; [intros e; apply download_helper_rejected |].
  split; [intros response; apply download_helper_not_ok |].
  intros response e. apply download_helper_unreadable.
Qed.

Lemma download_failure_leaves_page_witness :
  notesAPI.download None SamplePage.fetch_404 (VNum 7) SamplePage.some_page
  = (SamplePage.some_page, Thrown (Error "Download failed"))
  ∧ syllabusAPI.download None SamplePage.fetch_offline (VNum 7)
      SamplePage.some_page
    = (SamplePage.some_page, Thrown TypeError).
Proof.
  split.
  - destruct (download_failure_leaves_page None SamplePage.fetch_404 "notes"
                "note.pdf" (VNum 7) SamplePage.some_page) as (_ & Hnotok & _).
    eapply Hnotok; reflexivity.
  - destruct (download_failure_leaves_page None SamplePage.fetch_offline
                "syllabus" "syllabus.pdf" (VNum 7) SamplePage.some_page)
      as (Hrejected & _).
    eapply Hrejected; reflexivity.
Defined.

(** X23.  However a download ends, it leaves no anchor in the document and
    no object URL alive: the children of [document.body] and the live URLs
    are what they were, and at most one file has been saved. *)
Theorem download_cleans_up (env : option string) (fetch : fetcher)
  (section fallback : string) (id : jsval) (p : page) :
  let p' := (download_helper env fetch section fallback id p).1 in
  body_children p' = body_children p
  ∧ object_urls p' = object_urls p
  ∧ (saved p' = saved p
     ∨ ∃ name content : string,
         saved p' = (saved p ++ [(name, content)])%list).
Proof.
  intros p'. unfold p'.
  destruct (fetch (download_url env section (to_string id)) download_init)
    as [response | e] eqn:Hfetch.
  - destruct (ok response) eqn:Hok.
    + destruct (blob response) as [content | e] eqn:Hcontent.
      * rewrite (download_helper_ok _ _ _ _ _ _ _ _ Hfetch Hok Hcontent).
        simpl. split; [done |]. split; [done |]. right. eauto.
      * rewrite (download_helper_unreadable _ _ _ _ _ _ _ _ Hfetch Hok Hcontent).
        auto.
    + rewrite (download_helper_not_ok _ _ _ _ _ _ _ Hfetch Hok). auto.
  - rewrite (download_helper_rejected _ _ _ _ _ _ _ Hfetch). auto.
Qed.

(** The request of a download is the one the tables issue, whatever is in
    storage. *)
Lemma download_request_is_issue (env : option string)
  (ls : gmap string string) (id : jsval) :
  issue env ls (papersAPI_download id)
  = FetchRequest (download_url env "papers" (to_string id)) download_init
  ∧ issue env ls (notesAPI_download id)
    = FetchRequest (download_url env "notes" (to_string id)) download_init
  ∧ issue env ls (syllabusAPI_download id)
    = FetchRequest (download_url env "syllabus" (to_string id)) download_init.
Proof. done. Qed.

(** X24.  Every operation but [updateUser] leaves [isAdmin] in agreement
    with the user object held: the startup check and [logout] always,
    [login] and [register] whenever they resolve. *)
Theorem isAdmin_agrees_after_operations (env : option string)
  (server : backend) (w : world) :
  isAdmin_derived (checkAuth env server w).1
  ∧ isAdmin_derived (logout env server w).1
  ∧ (∀ (email password : jsval) (w' : world) (user : jsval),
       login env server email password w = (w', Returned user) →
       isAdmin_derived w')
  ∧ (∀ (userData : jsval) (w' : world) (user : jsval),
       register env server userData w = (w', Returned user) →
       isAdmin_derived w').
Proof.
  split; [apply checkAuth_derived |]. split; [apply logout_derived |].
  split; [intros *; apply login_derived | intros *; apply register_derived].
Qed.

Lemma isAdmin_agrees_after_operations_witness :
  isAdmin_derived
    (login None Sample.server_ok Sample.credentials_email
       Sample.credentials_password (mount ∅)).1.
Proof.
  destruct (isAdmin_agrees_after_operations None Sample.server_ok (mount ∅))
    as (_ & _ & Hlogin & _).
  apply (Hlogin Sample.credentials_email Sample.credentials_password _
           Sample.student).
  reflexivity.
Defined.
